(** * The join-application submission flow of the NodeX website

    A shallow embedding of [src/components/global/join-form.tsx]: the zod
    schema [formSchema], the submit handler [onSubmit] and the wiring of the
    [JoinForm] component (the [handleSubmit] wrapper of the form library and
    the submit button disabled by [isSubmitting]).

    [onSubmit] is an [async] function.  It is embedded as a program of a
    small resumption monad: synchronous calls on the component state are
    [Do] nodes, every [await] is an [Await] node at which the program is
    suspended until the awaited promise settles.  Two interpreters are
    given: [run], which executes up to the next [await], and [exec], which
    executes a whole call against an environment that settles each promise. *)

From Stdlib Require Import Ascii String List ZArith Bool Lia.
Import ListNotations.
Local Open Scope string_scope.
Local Open Scope Z_scope.
Set Warnings "-register-all".

(** ** JavaScript values *)

(** What [response.json()] can resolve to, together with [undefined] (the
    value of a property that is absent).  Numbers are kept integral; only
    their truthiness and identity are observed by the form. *)
Inductive Value : Type :=
| VUndefined
| VNull
| VBool (b : bool)
| VNum (n : Z)
| VStr (s : string)
| VArr (items : list Value)
| VObj (props : list (string * Value)).

(** ToBoolean, as used by [!token], [a || b] and [a && b]. *)
Definition truthy (v : Value) : bool :=
  match v with
  | VUndefined | VNull => false
  | VBool b => b
  | VNum n => negb (n =? 0)
  | VStr s => negb (s =? "")%string
  | VArr _ | VObj _ => true
  end.

(** [a || b] *)
Definition js_or (a b : Value) : Value := if truthy a then a else b.

(** Anything can be thrown; [Error] objects carry a message. *)
Inductive Exn : Type :=
| JsError (msg : string)
| Thrown (v : Value).

(** A settled promise. *)
Inductive Settled (X : Type) : Type :=
| Fulfilled (x : X)
| Rejected (e : Exn).
Arguments Fulfilled {X} x.
Arguments Rejected {X} e.

Fixpoint lookup (k : string) (props : list (string * Value)) : Value :=
  match props with
  | [] => VUndefined
  | (k', v) :: rest => if (k =? k')%string then v else lookup k rest
  end.

(** The [TypeError] of a property read on [null] or [undefined]. *)
Definition type_error (k : string) : Exn :=
  JsError ("Cannot read properties of null (reading '" ++ k ++ "')").

(** [v.k] for the keys read by the form ([message], [applicationId],
    [redirect]): an own property of an object, [undefined] on any other
    non-nullish value, a [TypeError] on [null] and [undefined]. *)
Definition get_prop (v : Value) (k : string) : Exn + Value :=
  match v with
  | VUndefined | VNull => inl (type_error k)
  | VObj props => inr (lookup k props)
  | _ => inr VUndefined
  end.

(** [err instanceof Error ? err.message : "unknown_error"] *)
Definition error_text (e : Exn) : Value :=
  match e with
  | JsError msg => VStr msg
  | Thrown _ => VStr "unknown_error"
  end.

(** ** The data of the component *)

(** [type FormData = z.infer<typeof formSchema>] *)
Record FormData : Type := {
  name : string;
  email : string;
  phone : string;
  batch : string;
  rollNumber : string;
  registrationNumber : string;
  department : string;
  interestedTracks : list string;
  whyJoin : string;
  experience : option string;
  projects : option string;
  otherRemarks : option string;
  recaptchaToken : string
}.

(** [defaultValues] of [useForm] *)
Definition defaultValues : FormData := {|
  name := "";
  email := "";
  phone := "";
  batch := "";
  rollNumber := "";
  registrationNumber := "";
  department := "";
  interestedTracks := [];
  whyJoin := "";
  experience := Some "";
  projects := Some "";
  otherRemarks := Some "";
  recaptchaToken := ""
|}.

(** [{ ...values, recaptchaToken: token }] *)
Definition with_recaptchaToken (values : FormData) (token : string) : FormData := {|
  name := name values;
  email := email values;
  phone := phone values;
  batch := batch values;
  rollNumber := rollNumber values;
  registrationNumber := registrationNumber values;
  department := department values;
  interestedTracks := interestedTracks values;
  whyJoin := whyJoin values;
  experience := experience values;
  projects := projects values;
  otherRemarks := otherRemarks values;
  recaptchaToken := token
|}.

Inductive StatusType : Type := success | error.

(** [{ type: "success" | "error" | null; message: string }].  The message
    is whatever [data.message || "..."] evaluates to, so it is a [Value]. *)
Record SubmitStatus : Type := {
  type : option StatusType;
  message : Value
}.

(** The state of the form library: the field values and the field-level
    errors, keyed by field name. *)
Record FormState : Type := {
  values : FormData;
  errors : list (string * string)
}.

(** The reCAPTCHA widget behind [recaptchaRef]: its current response. *)
Record ReCAPTCHA : Type := {
  response : option string
}.

(** The argument of [fetch]. *)
Record Request : Type := {
  url : string;
  method : string;
  headers : list (string * string);
  body : FormData
}.

(** The [Response] of [fetch]: its status and what [json()] settles to. *)
Record Response : Type := {
  status : Z;
  json : Settled Value
}.

(** [response.ok]: the status is in the range 200-299. *)
Definition ok (r : Response) : bool := (200 <=? status r) && (status r <=? 299).

Definition Context : Type := list (string * Value).

(** The component state and what the component has done to its
    collaborators: the requests issued with [fetch], the calls made to
    [logActivity], the assignments to [window.location.href] and the calls
    to [console.error]. *)
Record UI : Type := {
  isSubmitting : bool;
  submitStatus : SubmitStatus;
  form : FormState;
  recaptchaRef : option ReCAPTCHA;
  requests : list Request;
  activity : list (string * Context);
  navigations : list Value;
  console : list (string * Exn)
}.

Definition with_isSubmitting (b : bool) (ui : UI) : UI := {|
  isSubmitting := b;
  submitStatus := submitStatus ui;
  form := form ui;
  recaptchaRef := recaptchaRef ui;
  requests := requests ui;
  activity := activity ui;
  navigations := navigations ui;
  console := console ui
|}.

Definition with_submitStatus (s : SubmitStatus) (ui : UI) : UI := {|
  isSubmitting := isSubmitting ui;
  submitStatus := s;
  form := form ui;
  recaptchaRef := recaptchaRef ui;
  requests := requests ui;
  activity := activity ui;
  navigations := navigations ui;
  console := console ui
|}.

Definition with_form (f : FormState) (ui : UI) : UI := {|
  isSubmitting := isSubmitting ui;
  submitStatus := submitStatus ui;
  form := f;
  recaptchaRef := recaptchaRef ui;
  requests := requests ui;
  activity := activity ui;
  navigations := navigations ui;
  console := console ui
|}.

Definition with_recaptchaRef (r : option ReCAPTCHA) (ui : UI) : UI := {|
  isSubmitting := isSubmitting ui;
  submitStatus := submitStatus ui;
  form := form ui;
  recaptchaRef := r;
  requests := requests ui;
  activity := activity ui;
  navigations := navigations ui;
  console := console ui
|}.

Definition with_requests (l : list Request) (ui : UI) : UI := {|
  isSubmitting := isSubmitting ui;
  submitStatus := submitStatus ui;
  form := form ui;
  recaptchaRef := recaptchaRef ui;
  requests := l;
  activity := activity ui;
  navigations := navigations ui;
  console := console ui
|}.

Definition with_activity (l : list (string * Context)) (ui : UI) : UI := {|
  isSubmitting := isSubmitting ui;
  submitStatus := submitStatus ui;
  form := form ui;
  recaptchaRef := recaptchaRef ui;
  requests := requests ui;
  activity := l;
  navigations := navigations ui;
  console := console ui
|}.

Definition with_navigations (l : list Value) (ui : UI) : UI := {|
  isSubmitting := isSubmitting ui;
  submitStatus := submitStatus ui;
  form := form ui;
  recaptchaRef := recaptchaRef ui;
  requests := requests ui;
  activity := activity ui;
  navigations := l;
  console := console ui
|}.

Definition with_console (l : list (string * Exn)) (ui : UI) : UI := {|
  isSubmitting := isSubmitting ui;
  submitStatus := submitStatus ui;
  form := form ui;
  recaptchaRef := recaptchaRef ui;
  requests := requests ui;
  activity := activity ui;
  navigations := navigations ui;
  console := l
|}.

(** ** Programs *)

(** The synchronous calls [onSubmit] makes on the component. *)
Inductive Sync : Type -> Type :=
| setIsSubmitting (b : bool) : Sync unit
| setSubmitStatus (s : SubmitStatus) : Sync unit
| recaptcha_getValue : Sync (option string)
| recaptcha_reset : Sync unit
| form_reset : Sync unit
| set_location_href (target : Value) : Sync unit
| console_error (label : string) (e : Exn) : Sync unit.

(** The promises [onSubmit] awaits. *)
Inductive Async : Type -> Type :=
| fetch (req : Request) : Async Response
| response_json (r : Response) : Async Value
| logActivity (event : string) (ctx : Context) : Async unit.

(** A program is a tree: it returns, throws, performs a synchronous call
    and goes on with its result, or is suspended on a promise and goes on
    when the promise settles. *)
Inductive Prog (A : Type) : Type :=
| Ret (a : A)
| Throw (e : Exn)
| Do {X : Type} (c : Sync X) (k : X -> Prog A)
| Await {X : Type} (c : Async X) (k : Settled X -> Prog A).
Arguments Ret {A} a.
Arguments Throw {A} e.
Arguments Do {A X} c k.
Arguments Await {A X} c k.

Fixpoint bind {A B : Type} (p : Prog A) (f : A -> Prog B) : Prog B :=
  match p with
  | Ret a => f a
  | Throw e => Throw e
  | Do c k => Do c (fun x => bind (k x) f)
  | Await c k => Await c (fun r => bind (k r) f)
  end.

Declare Scope prog_scope.
Delimit Scope prog_scope with prog.
Notation "x <- p ;; q" := (bind p (fun x => q))
  (at level 61, p at next level, right associativity) : prog_scope.
Notation "p ;; q" := (bind p (fun _ => q))
  (at level 61, right associativity) : prog_scope.
Local Open Scope prog_scope.

(** A synchronous call as a statement. *)
Definition call {X : Type} (c : Sync X) : Prog X := Do c Ret.

(** [await c]: the value of the promise, or its rejection thrown. *)
Definition await {X : Type} (c : Async X) : Prog X :=
  Await c (fun r => match r with
                    | Fulfilled x => Ret x
                    | Rejected e => Throw e
                    end).

(** An expression that may throw. *)
Definition eval {A : Type} (r : Exn + A) : Prog A :=
  match r with
  | inl e => Throw e
  | inr a => Ret a
  end.

(** [try { p } catch (err) { h err }] *)
Fixpoint try_catch {A : Type} (p : Prog A) (h : Exn -> Prog A) : Prog A :=
  match p with
  | Ret a => Ret a
  | Throw e => h e
  | Do c k => Do c (fun x => try_catch (k x) h)
  | Await c k => Await c (fun r => try_catch (k r) h)
  end.

(** [try { p } finally { f }]: [f] runs however [p] completes, and the
    completion of [p] stands unless [f] throws. *)
Fixpoint try_finally {A : Type} (p : Prog A) (f : Prog unit) : Prog A :=
  match p with
  | Ret a => f ;; Ret a
  | Throw e => f ;; Throw e
  | Do c k => Do c (fun x => try_finally (k x) f)
  | Await c k => Await c (fun r => try_finally (k r) f)
  end.

(** ** The collaborators *)

(** [form.reset()]: the values go back to [defaultValues] and the errors
    are cleared. *)
Definition reset_form (f : FormState) : FormState :=
  {| values := defaultValues; errors := [] |}.

(** [recaptchaRef.current?.getValue()]: [undefined] when the widget is not
    mounted, otherwise the response of the widget ([null] when there is
    none).  [None] stands for both [undefined] and [null]. *)
Definition widget_value (r : option ReCAPTCHA) : option string :=
  match r with
  | None => None
  | Some w => response w
  end.

(** [recaptchaRef.current?.reset()]: the widget forgets its response.  The
    widget's [onChange] is not called, so the form's [recaptchaToken] field
    is left as it is. *)
Definition reset_widget (r : option ReCAPTCHA) : option ReCAPTCHA :=
  match r with
  | None => None
  | Some _ => Some {| response := None |}
  end.

(** The effect of a synchronous call and its result. *)
Definition perform {X : Type} (c : Sync X) (ui : UI) : UI * X :=
  match c in Sync X return UI * X with
  | setIsSubmitting b => (with_isSubmitting b ui, tt)
  | setSubmitStatus s => (with_submitStatus s ui, tt)
  | recaptcha_getValue => (ui, widget_value (recaptchaRef ui))
  | recaptcha_reset => (with_recaptchaRef (reset_widget (recaptchaRef ui)) ui, tt)
  | form_reset => (with_form (reset_form (form ui)) ui, tt)
  | set_location_href target => (with_navigations (navigations ui ++ [target]) ui, tt)
  | console_error label e => (with_console (console ui ++ [(label, e)]) ui, tt)
  end.

(** Starting an asynchronous call: [fetch] issues its request and
    [logActivity] hands its event to the logger when they are called, before
    anything is awaited. *)
Definition issue {X : Type} (c : Async X) (ui : UI) : UI :=
  match c with
  | fetch req => with_requests (requests ui ++ [req]) ui
  | response_json _ => ui
  | logActivity event ctx => with_activity (activity ui ++ [(event, ctx)]) ui
  end.

(** ** [onSubmit] *)

(** [fetch("/api/join", { method: "POST", headers: { "Content-Type":
    "application/json" }, body: JSON.stringify(submissionData) })] *)
Definition join_request (submissionData : FormData) : Request := {|
  url := "/api/join";
  method := "POST";
  headers := [("Content-Type", "application/json")];
  body := submissionData
|}.

(** [!token] *)
Definition token_missing (token : option string) : bool :=
  match token with
  | None => true
  | Some t => (t =? "")%string
  end.

(** What [token] is once [!token] is false. *)
Definition token_string (token : option string) : string :=
  match token with
  | None => ""
  | Some t => t
  end.

Definition verification_message : Value :=
  VStr "Please complete the reCAPTCHA verification.".
Definition success_fallback : Value :=
  VStr "Application submitted successfully!".
Definition failure_fallback : Value :=
  VStr "Failed to submit application. Please try again.".
Definition network_message : Value :=
  VStr "Network error. Please check your connection and try again.".

(** The [try] block.  Both [return] statements of the source are inside it
    and nothing follows the [try] statement, so a [return] is the block
    completing normally at that point. *)
Definition onSubmit_try (values : FormData) : Prog unit :=
  token <- call recaptcha_getValue ;;
  if token_missing token then
    call (setSubmitStatus {| type := Some error; message := verification_message |}) ;;
    call (setIsSubmitting false) ;;
    Ret tt
  else
    let submissionData := with_recaptchaToken values (token_string token) in
    response <- await (fetch (join_request submissionData)) ;;
    data <- await (response_json response) ;;
    if ok response then
      msg <- eval (get_prop data "message") ;;
      call (setSubmitStatus {| type := Some success;
                               message := js_or msg success_fallback |}) ;;
      applicationId <- eval (get_prop data "applicationId") ;;
      await (logActivity "join_form_success" [("applicationId", applicationId)]) ;;
      call form_reset ;;
      call recaptcha_reset
    else
      redirect <- (if status response =? 303
                   then eval (get_prop data "redirect")
                   else Ret (VBool false)) ;;
      if truthy redirect then
        await (logActivity "join_form_blocked" [("reason", VStr "blocked_ip")]) ;;
        call (set_location_href redirect) ;;
        Ret tt
      else
        msg <- eval (get_prop data "message") ;;
        call (setSubmitStatus {| type := Some error;
                                 message := js_or msg failure_fallback |}) ;;
        await (logActivity "join_form_error"
                 [("error_type", VStr "validation_or_server_error");
                  ("status_code", VNum (status response))]) ;;
        call recaptcha_reset.

(** The [catch] block. *)
Definition onSubmit_catch (err : Exn) : Prog unit :=
  call (console_error "Form submission error:" err) ;;
  call (setSubmitStatus {| type := Some error; message := network_message |}) ;;
  await (logActivity "join_form_error"
           [("error_type", VStr "network_error");
            ("error", error_text err)]) ;;
  call recaptcha_reset.

(** [async function onSubmit(values: FormData)] *)
Definition onSubmit (values : FormData) : Prog unit :=
  call (setIsSubmitting true) ;;
  call (setSubmitStatus {| type := None; message := VStr "" |}) ;;
  try_finally
    (try_catch (onSubmit_try values) onSubmit_catch)
    (call (setIsSubmitting false)).

(** ** Running a program *)

(** How a program stands when it stops. *)
Inductive Result (A : Type) : Type :=
| Done (a : A)
| Raised (e : Exn)
| Waiting {X : Type} (c : Async X) (k : Settled X -> Prog A).
Arguments Done {A} a.
Arguments Raised {A} e.
Arguments Waiting {A X} c k.

(** Run up to the next [await]. *)
Fixpoint run {A : Type} (p : Prog A) (ui : UI) : UI * Result A :=
  match p with
  | Ret a => (ui, Done a)
  | Throw e => (ui, Raised e)
  | Do c k => let (ui', x) := perform c ui in run (k x) ui'
  | Await c k => (issue c ui, Waiting c k)
  end.

(** What the collaborators answer: the server to a request and the logger
    to an event.  What [json()] settles to is part of the response. *)
Record Env : Type := {
  fetch_reply : Request -> Settled Response;
  log_reply : string -> Context -> Settled unit
}.

Definition reply (env : Env) {X : Type} (c : Async X) : Settled X :=
  match c in Async X return Settled X with
  | fetch req => fetch_reply env req
  | response_json r => json r
  | logActivity event ctx => log_reply env event ctx
  end.

(** How a call ends once every promise has settled. *)
Inductive Completion (A : Type) : Type :=
| Returned (a : A)
| Threw (e : Exn).
Arguments Returned {A} a.
Arguments Threw {A} e.

(** Run a whole call, every promise settling as the environment says. *)
Fixpoint exec {A : Type} (env : Env) (p : Prog A) (ui : UI) : UI * Completion A :=
  match p with
  | Ret a => (ui, Returned a)
  | Throw e => (ui, Threw e)
  | Do c k => let (ui', x) := perform c ui in exec env (k x) ui'
  | Await c k => exec env (k (reply env c)) (issue c ui)
  end.

(** ** The form *)

Section JoinForm.

(** The test behind [z.string().email()], which belongs to the schema
    library. *)
Variable is_email : string -> bool.

(** [z.string().min(n, msg)] at the key [path]: the issue raised when the
    string has fewer than [n] characters. *)
Definition min_length (path : string) (n : nat) (msg : string) (s : string)
  : list (string * string) :=
  if (String.length s <? n)%nat then [(path, msg)] else [].

(** [z.string().email(msg)] *)
Definition email_format (path : string) (msg : string) (s : string)
  : list (string * string) :=
  if is_email s then [] else [(path, msg)].

(** [z.array(z.string()).min(n, msg)] *)
Definition min_items (path : string) (n : nat) (msg : string) (l : list string)
  : list (string * string) :=
  if (List.length l <? n)%nat then [(path, msg)] else [].

(** The keys of [formSchema], each with the issues it raises: [name],
    [email], [phone], [batch], [rollNumber], [registrationNumber],
    [department], [interestedTracks], [whyJoin] and [recaptchaToken].  The
    three [z.string().optional()] keys raise none. *)
Definition name_issues (v : FormData) : list (string * string) :=
  min_length "name" 2 "Name must be at least 2 characters" (name v).
Definition email_issues (v : FormData) : list (string * string) :=
  email_format "email" "Invalid email address" (email v).
Definition phone_issues (v : FormData) : list (string * string) :=
  min_length "phone" 10 "Phone number must be at least 10 digits" (phone v).
Definition batch_issues (v : FormData) : list (string * string) :=
  min_length "batch" 4 "Please enter your batch year" (batch v).
Definition rollNumber_issues (v : FormData) : list (string * string) :=
  min_length "rollNumber" 1 "Roll number is required" (rollNumber v).
Definition registrationNumber_issues (v : FormData) : list (string * string) :=
  min_length "registrationNumber" 1 "Registration number is required"
    (registrationNumber v).
Definition department_issues (v : FormData) : list (string * string) :=
  min_length "department" 1 "Please select a department" (department v).
Definition interestedTracks_issues (v : FormData) : list (string * string) :=
  min_items "interestedTracks" 1 "Please select at least one track"
    (interestedTracks v).
Definition whyJoin_issues (v : FormData) : list (string * string) :=
  min_length "whyJoin" 50
    "Please provide at least 50 characters explaining why you want to join"
    (whyJoin v).
Definition recaptchaToken_issues (v : FormData) : list (string * string) :=
  min_length "recaptchaToken" 1 "reCAPTCHA verification is required"
    (recaptchaToken v).

(** [formSchema]: the issues of the values, in the order of the keys. *)
Definition formSchema (v : FormData) : list (string * string) :=
  name_issues v ++ email_issues v ++ phone_issues v ++ batch_issues v ++
  rollNumber_issues v ++ registrationNumber_issues v ++ department_issues v ++
  interestedTracks_issues v ++ whyJoin_issues v ++ recaptchaToken_issues v.

(** The required text fields of the application, each with the issues its
    key raises. *)
Definition required_fields
  : list ((FormData -> string) * (FormData -> list (string * string))) :=
  [(name, name_issues); (email, email_issues); (phone, phone_issues);
   (batch, batch_issues); (rollNumber, rollNumber_issues);
   (registrationNumber, registrationNumber_issues);
   (department, department_issues)].

(** [form.handleSubmit(onValid)] with [resolver: zodResolver(formSchema)]:
    the values are validated; with issues they become the errors of the
    form and [onValid] is not called; without, the errors are cleared and
    [onValid] is called with the values. *)
Definition handleSubmit (onValid : FormData -> Prog unit) (ui : UI)
  : UI * Result unit :=
  let v := values (form ui) in
  match formSchema v with
  | [] => run (onValid v) (with_form {| values := v; errors := [] |} ui)
  | issues => (with_form {| values := v; errors := issues |} ui, Done tt)
  end.

(** ** The component as an event-driven machine *)

(** A call of [onSubmit] suspended at an [await]. *)
Record Suspended : Type := {
  awaited_type : Type;
  awaited : Async awaited_type;
  resume : Settled awaited_type -> Prog unit
}.

(** The component between two events: its state and the calls of
    [onSubmit] that are suspended. *)
Record Machine : Type := {
  view : UI;
  pending : list Suspended
}.

Inductive Answer : Type :=
| Responded (r : Settled Response)
| Parsed (v : Settled Value)
| Logged (u : Settled unit).

Inductive Event : Type :=
| Submit
| Edit (f : FormState -> FormState)
| Verify (token : option string)
| Settle (i : nat) (a : Answer).

Definition answer_for {X : Type} (c : Async X) (a : Answer) : option (Settled X) :=
  match c in Async X return option (Settled X) with
  | fetch _ => match a with Responded r => Some r | _ => None end
  | response_json _ => match a with Parsed v => Some v | _ => None end
  | logActivity _ _ => match a with Logged u => Some u | _ => None end
  end.

(** Where a call stands after it has run up to its next [await]. *)
Definition suspend (r : UI * Result unit) (others : list Suspended) : Machine :=
  match r with
  | (ui, Waiting c k) =>
      {| view := ui; pending := others ++ [{| awaited := c; resume := k |}] |}
  | (ui, _) => {| view := ui; pending := others |}
  end.

Definition remove_nth {A : Type} (i : nat) (l : list A) : list A :=
  firstn i l ++ skipn (S i) l.

(** [form.setValue("recaptchaToken", token || "")] *)
Definition set_token_field (token : option string) (f : FormState) : FormState :=
  {| values := with_recaptchaToken (values f) (token_string token);
     errors := errors f |}.

(** The [onChange] of the widget: the widget has the new response (or none,
    when the old one expired) and the handler copies it into the form. *)
Definition verify (token : option string) (ui : UI) : UI :=
  match recaptchaRef ui with
  | None => ui
  | Some _ =>
      with_form (set_token_field token (form ui))
        (with_recaptchaRef (Some {| response := token |}) ui)
  end.

(** One event.
    - [Submit]: the submit button is [disabled={isSubmitting}]; when it is
      enabled the form's [onSubmit] is [form.handleSubmit(onSubmit)].
    - [Edit]: the user changes field values, and the form library
      revalidates them as it sees fit.
    - [Verify]: the widget calls [onChange].
    - [Settle]: the promise awaited by the [i]-th suspended call settles
      and the call runs on to its next [await]. *)
Definition step (m : Machine) (ev : Event) : Machine :=
  match ev with
  | Submit =>
      if isSubmitting (view m) then m
      else suspend (handleSubmit onSubmit (view m)) (pending m)
  | Edit f =>
      {| view := with_form (f (form (view m))) (view m);
         pending := pending m |}
  | Verify token => {| view := verify token (view m); pending := pending m |}
  | Settle i a =>
      match nth_error (pending m) i with
      | None => m
      | Some s =>
          match answer_for (awaited s) a with
          | None => m
          | Some r => suspend (run (resume s r) (view m)) (remove_nth i (pending m))
          end
      end
  end.

Definition steps (m : Machine) (evs : list Event) : Machine :=
  fold_left step evs m.

(** The component when it is mounted. *)
Definition initial : Machine := {|
  view := {| isSubmitting := false;
             submitStatus := {| type := None; message := VStr "" |};
             form := {| values := defaultValues; errors := [] |};
             recaptchaRef := Some {| response := None |};
             requests := [];
             activity := [];
             navigations := [];
             console := [] |};
  pending := []
|}.


End JoinForm.

(** ** The rest of the form *)

(** [const tracks] *)
Definition tracks : list string :=
  ["Coding & Development"; "Postgraduate Prep"; "Hardware & IoT"].

(** [field.value?.includes(track)], the [checked] of a track's checkbox. *)
Definition includes (track : string) (value : list string) : bool :=
  existsb (String.eqb track) value.

(** The [onCheckedChange] of a track's checkbox, as the new field value:
    [checked ? [...field.value, track]
             : field.value?.filter((value) => value !== track)]. *)
Definition onCheckedChange (track : string) (checked : bool) (value : list string)
  : list string :=
  if checked then value ++ [track]
  else filter (fun x => negb (x =? track)%string) value.

(** A click on the checkbox of a track: the checkbox reports the opposite
    of what it shows. *)
Definition click_track (value : list string) (track : string) : list string :=
  onCheckedChange track (negb (includes track value)) value.

(** The status banner above the form: none while [submitStatus.type] is
    [null], otherwise green for a success and red for an error, with the
    message in it. *)
Inductive Banner : Type :=
| no_banner
| green_banner (text : Value)
| red_banner (text : Value).

Definition banner (s : SubmitStatus) : Banner :=
  match type s with
  | None => no_banner
  | Some success => green_banner (message s)
  | Some error => red_banner (message s)
  end.

(** ** The header *)

(** [src/components/global/header.tsx] *)
Module Header.

Record NavItem : Type := {
  name : string;
  path : string
}.

(** [const navItems] *)
Definition navItems : list NavItem :=
  [{| name := "Home"; path := "/" |};
   {| name := "Team"; path := "/team" |};
   {| name := "Events"; path := "/events" |};
   {| name := "Resources"; path := "/resources" |};
   {| name := "Collaborate"; path := "/collaborate" |};
   {| name := "Join"; path := "/join" |}].

(** [isActive], with the [pathname] it closes over:
    [if (path === "/" && pathname === "/") return true;
     if (path !== "/" && pathname.startsWith(path)) return true;
     return false;] *)
Definition isActive (pathname : string) (path : string) : bool :=
  if (path =? "/")%string && (pathname =? "/")%string then true
  else if negb (path =? "/")%string && prefix path pathname then true
  else false.

End Header.

(** ** Predicates used by the properties *)

(** [settles_idle p ui]: started in [ui], the program [p] has
    [isSubmitting] set at every [await] it is suspended on and cleared when
    it completes, whatever the promises settle to and whatever else happens
    to the component in between, as long as [isSubmitting] is left alone. *)
Fixpoint settles_idle (p : Prog unit) (ui : UI) : Prop :=
  match p with
  | Ret _ | Throw _ => isSubmitting ui = false
  | Do c k => settles_idle (k (snd (perform c ui))) (fst (perform c ui))
  | Await c k =>
      isSubmitting ui = true /\
      forall r ui', isSubmitting ui' = true -> settles_idle (k r) ui'
  end.

(** The invariant of the machine: nothing is suspended and the button is
    enabled, or exactly one call is suspended and the button is disabled
    until that call completes. *)
Definition one_in_flight (m : Machine) : Prop :=
  match pending m with
  | [] => isSubmitting (view m) = false
  | [s] =>
      isSubmitting (view m) = true /\
      forall r ui', isSubmitting ui' = true -> settles_idle (resume s r) ui'
  | _ => False
  end.

(** What the user sees of a transition: the status shown, the field values
    and the verification token held by the widget. *)
Definition outcome (ui : UI) : SubmitStatus * FormData * option string :=
  (submitStatus ui, values (form ui), widget_value (recaptchaRef ui)).


(** The logger fulfils every call. *)
Definition logger_fulfils (env : Env) : Prop :=
  forall event ctx, log_reply env event ctx = Fulfilled tt.


Definition awaits_logger (s : Suspended) : bool :=
  match awaited s with
  | logActivity _ _ => true
  | _ => false
  end.

(** "A delay of the logging collaborator never blocks the UI transition":
    whenever a call is suspended on [logActivity], the outcome is already
    the one shown once the logger has answered. *)
Definition logging_never_blocks (is_email : string -> bool) : Prop :=
  forall (evs : list Event) (s : Suspended),
    pending (steps is_email initial evs) = [s] ->
    awaits_logger s = true ->
    outcome (view (steps is_email initial evs)) =
    outcome (view (step is_email (steps is_email initial evs)
                     (Settle 0 (Logged (Fulfilled tt))))).

(** [fetch_free p]: the program [p] never calls [fetch], whatever the
    promises it awaits settle to. *)
Fixpoint fetch_free (p : Prog unit) : Prop :=
  match p with
  | Ret _ | Throw _ => True
  | Do c k => forall x, fetch_free (k x)
  | Await c k =>
      match c with
      | fetch _ => False
      | _ => True
      end /\ forall r, fetch_free (k r)
  end.

(** A request as the form is meant to send it: a [POST] of schema-valid
    values to [/api/join]. *)
Definition well_formed_request (is_email : string -> bool) (req : Request) : Prop :=
  req = join_request (body req) /\ formSchema is_email (body req) = [].

(** The invariant behind the requests of the machine: every request issued
    so far is well formed, and no suspended call will issue another. *)
Definition requests_well_formed (is_email : string -> bool) (m : Machine) : Prop :=
  Forall (well_formed_request is_email) (requests (view m)) /\
  Forall (fun s => forall r, fetch_free (resume s r)) (pending m).




(** "Every submission attempt lacking a verification token is blocked with
    a VerificationMissing outcome and no request": in every state the
    component reaches, a submit event on an enabled form whose widget holds
    no token issues no request and reports the missing verification, as
    the field-level error of [recaptchaToken] or as the banner of
    [onSubmit]. *)
Definition missing_token_reports_verification (is_email : string -> bool) : Prop :=
  forall evs : list Event,
    isSubmitting (view (steps is_email initial evs)) = false ->
    token_missing
      (widget_value (recaptchaRef (view (steps is_email initial evs)))) = true ->
    requests (view (step is_email (steps is_email initial evs) Submit)) =
      requests (view (steps is_email initial evs)) /\
    (In ("recaptchaToken", "reCAPTCHA verification is required")
        (errors (form (view (step is_email (steps is_email initial evs) Submit)))) \/
     submitStatus (view (step is_email (steps is_email initial evs) Submit)) =
       {| type := Some error; message := verification_message |}).

(** ** Sample data *)

(** A stand-in for the e-mail test of the schema library: the address
    holds an [@]. *)
Fixpoint sample_is_email (s : string) : bool :=
  match s with
  | EmptyString => false
  | String c rest => (Ascii.eqb c "@"%char) || sample_is_email rest
  end.

Definition sample_values : FormData := {|
  name := "Ada Lovelace";
  email := "ada@example.org";
  phone := "+91 9876543210";
  batch := "2024";
  rollNumber := "42";
  registrationNumber := "R-2024-42";
  department := "Computer Science and Engineering";
  interestedTracks := ["Hardware & IoT"];
  whyJoin := "I want to build things with other students and learn from them.";
  experience := Some "";
  projects := Some "";
  otherRemarks := Some "";
  recaptchaToken := "tok"
|}.

(** The form filled in and verified, nothing submitted yet. *)
Definition sample_ui : UI := {|
  isSubmitting := false;
  submitStatus := {| type := None; message := VStr "" |};
  form := {| values := sample_values; errors := [] |};
  recaptchaRef := Some {| response := Some "tok" |};
  requests := [];
  activity := [];
  navigations := [];
  console := []
|}.

Definition sample_payload : Value :=
  VObj [("message", VStr "Application received");
        ("applicationId", VStr "X")].

Definition sample_env (server : Settled Response) (logger : Settled unit) : Env := {|
  fetch_reply := fun _ => server;
  log_reply := fun _ _ => logger
|}.

Definition sample_created : Response :=
  {| status := 201; json := Fulfilled sample_payload |}.
Definition sample_blocked : Response :=
  {| status := 303; json := Fulfilled (VObj [("redirect", VStr "/blocked")]) |}.
Definition sample_throttled : Response :=
  {| status := 429; json := Fulfilled (VObj [("message", VStr "Too many requests")]) |}.

(** Filling in the form, solving the challenge and pressing the button. *)
Definition sample_submission : list Event :=
  [Edit (fun _ => {| values := sample_values; errors := [] |});
   Verify (Some "tok"); Submit].

(** The sample submission rejected with status 429, after which the user
    clears the name without solving a new challenge. *)
Definition sample_rejected_then_edited : list Event :=
  (sample_submission ++
   [Settle 0 (Responded (Fulfilled sample_throttled));
    Settle 0 (Parsed (json sample_throttled));
    Settle 0 (Logged (Fulfilled tt));
    Edit (fun f =>
            {| values :=
                 {| name := ""; email := email (values f);
                    phone := phone (values f); batch := batch (values f);
                    rollNumber := rollNumber (values f);
                    registrationNumber := registrationNumber (values f);
                    department := department (values f);
                    interestedTracks := interestedTracks (values f);
                    whyJoin := whyJoin (values f);
                    experience := experience (values f);
                    projects := projects (values f);
                    otherRemarks := otherRemarks (values f);
                    recaptchaToken := recaptchaToken (values f) |};
               errors := errors f |})])%list.

(** ** Properties of the interpreters *)

Lemma exec_run {A : Type} (env : Env) (p : Prog A) (ui : UI) :
  exec env p ui =
  match run p ui with
  | (ui', Done a) => (ui', Returned a)
  | (ui', Raised e) => (ui', Threw e)
  | (ui', Waiting c k) => exec env (k (reply env c)) ui'
  end.
Proof.
  revert ui; induction p as [a | e | X c k IH | X c k IH]; intros ui; simpl;
    try reflexivity.
  destruct (perform c ui) as [ui' x]; apply IH.
Qed.

Lemma token_present (tok : string) :
  tok <> "" -> token_missing (Some tok) = false.
Proof. intros H; simpl; apply String.eqb_neq; exact H. Qed.

Lemma widget_value_reset (r : option ReCAPTCHA) :
  widget_value (reset_widget r) = None.
Proof. destruct r; reflexivity. Qed.



(** ** The response of the server *)







(** ** Validation *)

(** Without a token in the widget [onSubmit] completes before its first
    [await]: it shows the verification message, clears [isSubmitting] and
    touches nothing else. *)
Lemma onSubmit_without_token (v : FormData) (ui : UI) :
  token_missing (widget_value (recaptchaRef ui)) = true ->
  run (onSubmit v) ui =
    ({| isSubmitting := false;
        submitStatus := {| type := Some error; message := verification_message |};
        form := form ui;
        recaptchaRef := recaptchaRef ui;
        requests := requests ui;
        activity := activity ui;
        navigations := navigations ui;
        console := console ui |}, Done tt).
Proof.
  intros H; unfold onSubmit, onSubmit_try; cbn; rewrite H; reflexivity.
Qed.

Section Validation.

Variable is_email : string -> bool.

Lemma min_length_short (path msg s : string) (n : nat) :
  (String.length s < n)%nat -> min_length path n msg s = [(path, msg)].
Proof.
  intros H; unfold min_length.
  destruct (Nat.ltb_spec (String.length s) n); [reflexivity | lia].
Qed.

(** With issues, [handleSubmit] records them and does not call [onValid]. *)
Lemma handleSubmit_invalid (onValid : FormData -> Prog unit) (ui : UI) :
  formSchema is_email (values (form ui)) <> [] ->
  handleSubmit is_email onValid ui =
    (with_form {| values := values (form ui);
                  errors := formSchema is_email (values (form ui)) |} ui,
     Done tt).
Proof.
  intros H; unfold handleSubmit.
  destruct (formSchema is_email (values (form ui))); [contradiction | reflexivity].
Qed.

(** A submit event on a form with issues: the issues become the errors of
    the form and nothing else changes. *)
Lemma submit_invalid (m : Machine) :
  isSubmitting (view m) = false ->
  formSchema is_email (values (form (view m))) <> [] ->
  step is_email m Submit =
    {| view := with_form
                 {| values := values (form (view m));
                    errors := formSchema is_email (values (form (view m))) |}
                 (view m);
       pending := pending m |}.
Proof.
  intros Hidle H; unfold step; rewrite Hidle.
  rewrite (handleSubmit_invalid _ _ H); reflexivity.
Qed.

Lemma issues_in_schema (v : FormData) (i : string * string)
    (chk : FormData -> list (string * string)) :
  In chk [name_issues; email_issues is_email; phone_issues; batch_issues;
          rollNumber_issues; registrationNumber_issues; department_issues;
          interestedTracks_issues; whyJoin_issues; recaptchaToken_issues] ->
  In i (chk v) -> In i (formSchema is_email v).
Proof.
  unfold formSchema; intros Hc Hi; simpl in Hc.
  repeat (destruct Hc as [<- | Hc];
          [repeat (apply in_or_app; first [left; exact Hi | right]); exact Hi |]).
  contradiction.
Qed.

Lemma empty_field_raises_issue (v : FormData)
    (field : FormData -> string) (chk : FormData -> list (string * string)) :
  is_email "" = false ->
  In (field, chk) (required_fields is_email) ->
  field v = "" -> chk v <> [].
Proof.
  intros Hemail Hin Hempty; simpl in Hin.
  repeat (destruct Hin as [Heq | Hin];
          [injection Heq as <- <-;
           first [ unfold email_issues, email_format; rewrite Hempty, Hemail
                 | unfold name_issues, phone_issues, batch_issues,
                     rollNumber_issues, registrationNumber_issues,
                     department_issues;
                   rewrite Hempty ];
           discriminate |]).
  contradiction.
Qed.

Lemma required_in_schema (v : FormData) (i : string * string)
    (field : FormData -> string) (chk : FormData -> list (string * string)) :
  In (field, chk) (required_fields is_email) ->
  In i (chk v) -> In i (formSchema is_email v).
Proof.
  intros Hin; apply issues_in_schema; simpl in Hin |- *.
  repeat (destruct Hin as [Heq | Hin]; [injection Heq as <- <-; tauto |]).
  contradiction.
Qed.

Lemma schema_nonempty (v : FormData) (i : string * string) :
  In i (formSchema is_email v) -> formSchema is_email v <> [].
Proof. intros Hi Hnil; rewrite Hnil in Hi; exact Hi. Qed.

(** C3.  When a required field (name, email, phone, batch, roll number,
    registration number, department) is empty or raises an issue of the
    schema, a submit event issues no request, starts no call and logs
    nothing; when the button is enabled the only change is that the issues
    of the schema become the field-level errors of the form, those of the
    offending field among them. *)
Theorem invalid_required_field_blocks_submission
    (m : Machine)
    (field : FormData -> string) (chk : FormData -> list (string * string)) :
  is_email "" = false ->
  In (field, chk) (required_fields is_email) ->
  field (values (form (view m))) = "" \/ chk (values (form (view m))) <> [] ->
  requests (view (step is_email m Submit)) = requests (view m) /\
  pending (step is_email m Submit) = pending m /\
  activity (view (step is_email m Submit)) = activity (view m) /\
  (isSubmitting (view m) = false ->
   step is_email m Submit =
     {| view := with_form
                  {| values := values (form (view m));
                     errors := formSchema is_email (values (form (view m))) |}
                  (view m);
        pending := pending m |} /\
   chk (values (form (view m))) <> [] /\
   incl (chk (values (form (view m))))
        (errors (form (view (step is_email m Submit))))).
Proof.
  intros Hemail Hin Hbad.
  assert (Hchk : chk (values (form (view m))) <> []).
  { destruct Hbad as [Hempty | Hchk]; [| exact Hchk].
    exact (empty_field_raises_issue _ field chk Hemail Hin Hempty). }
  assert (Hschema : formSchema is_email (values (form (view m))) <> []).
  { destruct (chk (values (form (view m)))) as [| i rest] eqn:E;
      [contradiction |].
    apply (schema_nonempty _ i), (required_in_schema _ i field chk Hin).
    rewrite E; left; reflexivity. }
  destruct (isSubmitting (view m)) eqn:Hbusy.
  - unfold step; rewrite Hbusy; repeat split; discriminate.
  - rewrite (submit_invalid m Hbusy Hschema); simpl.
    repeat split; auto.
    intros i Hi; exact (required_in_schema _ i field chk Hin Hi).
Qed.

(** C8.  When the motivation has fewer than 50 characters, whatever the
    other fields hold, a submit event issues no request and starts no call;
    when the button is enabled the issues of the schema become the errors
    of the form, the one of [whyJoin] among them. *)
Theorem short_motivation_blocks_submission (m : Machine) :
  (String.length (whyJoin (values (form (view m)))) < 50)%nat ->
  requests (view (step is_email m Submit)) = requests (view m) /\
  pending (step is_email m Submit) = pending m /\
  (isSubmitting (view m) = false ->
   step is_email m Submit =
     {| view := with_form
                  {| values := values (form (view m));
                     errors := formSchema is_email (values (form (view m))) |}
                  (view m);
        pending := pending m |} /\
   In ("whyJoin",
       "Please provide at least 50 characters explaining why you want to join")
      (errors (form (view (step is_email m Submit))))).
Proof.
  intros Hshort.
  assert (Hin : In ("whyJoin",
       "Please provide at least 50 characters explaining why you want to join")
      (formSchema is_email (values (form (view m))))).
  { apply (issues_in_schema _ _ whyJoin_issues); [simpl; tauto |].
    unfold whyJoin_issues; rewrite (min_length_short _ _ _ _ Hshort).
    left; reflexivity. }
  destruct (isSubmitting (view m)) eqn:Hbusy.
  - unfold step; rewrite Hbusy; repeat split; discriminate.
  - rewrite (submit_invalid m Hbusy (schema_nonempty _ _ Hin)); simpl.
    repeat split; auto.
Qed.

(** C4, as the code has it.  A submit event on an enabled form without a
    verification token, the widget holding none or the [recaptchaToken]
    field being empty, issues no request, logs nothing and leaves nothing
    suspended.  An empty field raises the field-level error of
    [recaptchaToken]; when the form passes the schema, [onSubmit] itself
    reads the widget, finds no token and shows the verification message;
    when the schema raises issues, its issues become the errors of the form
    and nothing else changes, whatever the widget holds. *)
Theorem missing_token_blocks_submission (m : Machine) :
  isSubmitting (view m) = false ->
  token_missing (widget_value (recaptchaRef (view m))) = true \/
  recaptchaToken (values (form (view m))) = "" ->
  requests (view (step is_email m Submit)) = requests (view m) /\
  pending (step is_email m Submit) = pending m /\
  activity (view (step is_email m Submit)) = activity (view m) /\
  isSubmitting (view (step is_email m Submit)) = false /\
  (recaptchaToken (values (form (view m))) = "" ->
   In ("recaptchaToken", "reCAPTCHA verification is required")
      (errors (form (view (step is_email m Submit))))) /\
  (formSchema is_email (values (form (view m))) = [] ->
   submitStatus (view (step is_email m Submit)) =
     {| type := Some error; message := verification_message |}) /\
  (formSchema is_email (values (form (view m))) <> [] ->
   step is_email m Submit =
     {| view := with_form
                  {| values := values (form (view m));
                     errors := formSchema is_email (values (form (view m))) |}
                  (view m);
        pending := pending m |}).
Proof.
  intros Hidle Hmissing.
  assert (Hfield : recaptchaToken (values (form (view m))) = "" ->
            In ("recaptchaToken", "reCAPTCHA verification is required")
               (formSchema is_email (values (form (view m))))).
  { intros Hempty.
    apply (issues_in_schema _ _ recaptchaToken_issues); [simpl; tauto |].
    unfold recaptchaToken_issues, min_length; rewrite Hempty.
    left; reflexivity. }
  destruct (formSchema is_email (values (form (view m)))) as [| i rest] eqn:Hs.
  - destruct Hmissing as [Hwidget | Hempty];
      [| destruct (Hfield Hempty)].
    unfold step, handleSubmit; rewrite Hidle, Hs.
    rewrite onSubmit_without_token by exact Hwidget; simpl.
    repeat split; auto.
    intros Hne; contradiction Hne; reflexivity.
  - assert (Hne : formSchema is_email (values (form (view m))) <> [])
      by (rewrite Hs; discriminate).
    rewrite (submit_invalid m Hidle Hne); simpl.
    repeat split; auto.
    + rewrite Hs; exact Hfield.
    + discriminate.
    + rewrite Hs; reflexivity.
Qed.

End Validation.

(** ** One submission at a time *)

Lemma issue_isSubmitting {X : Type} (c : Async X) (ui : UI) :
  isSubmitting (issue c ui) = isSubmitting ui.
Proof. destruct c; reflexivity. Qed.

(** Case analysis along the branches of [onSubmit]. *)
Ltac branches :=
  repeat (cbn;
          match goal with
          | |- _ /\ _ => split
          | |- forall _, _ => intro
          | |- context [match ?x with _ => _ end] => destruct x eqn:?
          | |- _ = _ => first [reflexivity | assumption]
          end).

(** Every call of [onSubmit] keeps [isSubmitting] set while it is
    suspended and clears it when it completes. *)
Lemma onSubmit_settles_idle (v : FormData) (ui : UI) :
  settles_idle (onSubmit v) ui.
Proof. unfold onSubmit, onSubmit_try, onSubmit_catch, eval; branches. Qed.

Lemma run_settles_idle (p : Prog unit) (ui : UI) :
  settles_idle p ui ->
  match run p ui with
  | (ui', Waiting c k) =>
      isSubmitting ui' = true /\
      forall r ui'', isSubmitting ui'' = true -> settles_idle (k r) ui''
  | (ui', _) => isSubmitting ui' = false
  end.
Proof.
  revert ui; induction p as [a | e | X c k IH | X c k IH]; intros ui H; simpl in *.
  - exact H.
  - exact H.
  - destruct (perform c ui) as [ui' x]; apply IH; exact H.
  - rewrite issue_isSubmitting; exact H.
Qed.

(** A call that has run up to its next [await] leaves the machine with one
    call in flight, or with none when it has completed. *)
Lemma suspend_one_in_flight (p : Prog unit) (ui : UI) :
  settles_idle p ui -> one_in_flight (suspend (run p ui) []).
Proof.
  intros H; apply run_settles_idle in H.
  destruct (run p ui) as [ui' [a | e | X c k]]; exact H.
Qed.

Section Flow.

Variable is_email : string -> bool.

Lemma step_one_in_flight (m : Machine) (ev : Event) :
  one_in_flight m -> one_in_flight (step is_email m ev).
Proof.
  intros Inv; destruct ev as [| f | token | i a]; simpl.
  - destruct (isSubmitting (view m)) eqn:Hbusy; [exact Inv |].
    unfold one_in_flight in Inv.
    destruct (pending m) as [| s [| s' rest]];
      [| destruct Inv as [Inv _]; congruence | contradiction].
    unfold handleSubmit.
    destruct (formSchema is_email (values (form (view m)))).
    + apply suspend_one_in_flight, onSubmit_settles_idle.
    + exact Hbusy.
  - exact Inv.
  - unfold one_in_flight, verify in *; simpl.
    destruct (recaptchaRef (view m)); exact Inv.
  - unfold one_in_flight in Inv.
    destruct (pending m) as [| s [| s' rest]] eqn:Hp; [| | contradiction].
    + destruct i; simpl; unfold one_in_flight; rewrite Hp; exact Inv.
    + destruct i as [| i]; simpl.
      * destruct (answer_for (awaited s) a) as [r |].
        -- apply suspend_one_in_flight, Inv, Inv.
        -- unfold one_in_flight; rewrite Hp; exact Inv.
      * destruct i; simpl; unfold one_in_flight; rewrite Hp; exact Inv.
Qed.

Lemma steps_one_in_flight (evs : list Event) (m : Machine) :
  one_in_flight m -> one_in_flight (steps is_email m evs).
Proof.
  revert m; induction evs as [| ev evs IH]; intros m Inv; simpl.
  - exact Inv.
  - apply IH, step_one_in_flight, Inv.
Qed.

(** A submit event on an enabled, valid form with a token in the widget
    issues the request and leaves the call suspended on it. *)
Lemma submit_valid (m : Machine) (tok : string) :
  isSubmitting (view m) = false ->
  formSchema is_email (values (form (view m))) = [] ->
  widget_value (recaptchaRef (view m)) = Some tok ->
  tok <> "" ->
  requests (view (step is_email m Submit)) =
    (requests (view m) ++
     [join_request (with_recaptchaToken (values (form (view m))) tok)])%list /\
  isSubmitting (view (step is_email m Submit)) = true /\
  length (pending (step is_email m Submit)) = S (length (pending m)).
Proof.
  intros Hidle Hvalid Hw Htok.
  unfold step, handleSubmit; rewrite Hidle, Hvalid.
  unfold onSubmit, onSubmit_try; cbn.
  rewrite Hw, (token_present tok Htok); cbn.
  repeat split; rewrite length_app; simpl; lia.
Qed.

(** C9.  In every state the component reaches from its initial state, by
    any sequence of submit events, edits, verifications and settlements:
    at most one call of [onSubmit] is suspended; while one is,
    [isSubmitting] is set and a submit event changes nothing, so that no
    second request is issued; when none is, [isSubmitting] is cleared, and
    a submit event on a valid form with a token issues its request. *)
Theorem at_most_one_submission_in_flight (evs : list Event) :
  (length (pending (steps is_email initial evs)) <= 1)%nat /\
  (pending (steps is_email initial evs) <> [] ->
   isSubmitting (view (steps is_email initial evs)) = true /\
   step is_email (steps is_email initial evs) Submit =
     steps is_email initial evs) /\
  (pending (steps is_email initial evs) = [] ->
   isSubmitting (view (steps is_email initial evs)) = false /\
   forall tok,
     formSchema is_email
       (values (form (view (steps is_email initial evs)))) = [] ->
     widget_value (recaptchaRef (view (steps is_email initial evs))) = Some tok ->
     tok <> "" ->
     requests (view (step is_email (steps is_email initial evs) Submit)) =
       (requests (view (steps is_email initial evs)) ++
        [join_request
           (with_recaptchaToken
              (values (form (view (steps is_email initial evs)))) tok)])%list).
Proof.
  assert (Inv : one_in_flight (steps is_email initial evs))
    by (apply steps_one_in_flight; reflexivity).
  set (m := steps is_email initial evs) in *.
  unfold one_in_flight in Inv.
  destruct (pending m) as [| s [| s' rest]] eqn:Hp; [| | contradiction].
  - split; [simpl; lia |]. split; [intros H; contradiction |].
    intros _; split; [exact Inv |].
    intros tok Hvalid Hw Htok.
    apply (submit_valid m tok Inv Hvalid Hw Htok).
  - destruct Inv as [Hbusy _].
    split; [simpl; lia |]. split; [| discriminate].
    intros _; split; [exact Hbusy |].
    unfold step; rewrite Hbusy; reflexivity.
Qed.

End Flow.

(** ** The logger *)

Ltac fulfilled Hl :=
  try match goal with
      | H : log_reply _ _ _ = Rejected _ |- _ => rewrite Hl in H; discriminate
      end.

(** The request a call issues does not depend on the environment. *)
Lemma onSubmit_requests (env : Env) (v : FormData) (ui : UI) :
  requests (fst (exec env (onSubmit v) ui)) =
  if token_missing (widget_value (recaptchaRef ui)) then requests ui
  else (requests ui ++
        [join_request
           (with_recaptchaToken v (token_string (widget_value (recaptchaRef ui))))])%list.
Proof. unfold onSubmit, onSubmit_try, onSubmit_catch, eval; branches. Qed.





(** While the success event is being logged the form has not been reset
    yet: the reset waits for the logger. *)
Lemma logger_delay_holds_back_reset :
  ~ logging_never_blocks sample_is_email.
Proof.
  intros H.
  pose (evs := (sample_submission ++
                [Settle 0 (Responded (Fulfilled sample_created));
                 Settle 0 (Parsed (Fulfilled sample_payload))])%list).
  pose (m := steps sample_is_email initial evs).
  pose (idle := {| awaited := response_json sample_created;
                   resume := fun _ => Ret tt |}).
  assert (Hp : pending m = [hd idle (pending m)]) by (vm_compute; reflexivity).
  specialize (H evs (hd idle (pending m)) Hp eq_refl).
  vm_compute in H; discriminate H.
Qed.


(** C4, as the claim has it, does not hold.  After a response with status
    429 the widget has been reset but the [recaptchaToken] field still
    holds the token that was sent; with the name cleared, a submit event on
    this form without a token is stopped by the schema, which reports the
    name only, and the banner still shows the message of the server. *)
Lemma missing_token_not_always_reported :
  ~ (forall is_email, missing_token_reports_verification is_email).
Proof.
  intros H.
  destruct (H sample_is_email sample_rejected_then_edited eq_refl eq_refl)
    as [_ [Hin | Hbanner]].
  - vm_compute in Hin; destruct Hin as [Hin | []]; discriminate Hin.
  - vm_compute in Hbanner; discriminate Hbanner.
Qed.

(** ** The properties at the sample data *)

Lemma sample_token : "tok" <> "".
Proof. discriminate. Defined.







(** The form as mounted, with an empty name. *)
Lemma invalid_required_field_blocks_submission_witness :
  sample_is_email "" = false /\
  name (values (form (view initial))) = "" /\
  requests (view (step sample_is_email initial Submit)) = [] /\
  pending (step sample_is_email initial Submit) = [] /\
  incl [("name", "Name must be at least 2 characters")]
       (errors (form (view (step sample_is_email initial Submit)))).
Proof.
  pose proof (invalid_required_field_blocks_submission sample_is_email initial
                name name_issues eq_refl (or_introl eq_refl)
                (or_introl eq_refl)) as (Hr & Hp & _ & H).
  destruct (H eq_refl) as (_ & _ & Hi).
  split; [reflexivity |]. split; [reflexivity |].
  split; [exact Hr |]. split; [exact Hp | exact Hi].
Defined.

(** The sample form with its motivation cut short. *)
Lemma short_motivation_blocks_submission_witness :
  requests (view (step sample_is_email
    (steps sample_is_email initial
       [Edit (fun _ => {| values := sample_values; errors := [] |});
        Edit (fun f =>
                {| values :=
                     {| name := name (values f); email := email (values f);
                        phone := phone (values f); batch := batch (values f);
                        rollNumber := rollNumber (values f);
                        registrationNumber := registrationNumber (values f);
                        department := department (values f);
                        interestedTracks := interestedTracks (values f);
                        whyJoin := "Because.";
                        experience := experience (values f);
                        projects := projects (values f);
                        otherRemarks := otherRemarks (values f);
                        recaptchaToken := recaptchaToken (values f) |};
                   errors := errors f |});
        Verify (Some "tok")]) Submit)) = [].
Proof.
  refine (proj1 (short_motivation_blocks_submission sample_is_email _ _)).
  vm_compute; lia.
Defined.

(** The sample form submitted before the challenge is solved. *)
Lemma missing_token_blocks_submission_witness :
  requests (view (step sample_is_email
    (steps sample_is_email initial
       [Edit (fun _ => {| values := sample_values; errors := [] |})]) Submit)) = [] /\
  submitStatus (view (step sample_is_email
    (steps sample_is_email initial
       [Edit (fun _ => {| values := sample_values; errors := [] |})]) Submit)) =
    {| type := Some error; message := verification_message |}.
Proof.
  pose proof (missing_token_blocks_submission sample_is_email
                (steps sample_is_email initial
                   [Edit (fun _ => {| values := sample_values; errors := [] |})])
                eq_refl (or_introl eq_refl)) as (Hr & _ & _ & _ & _ & Hs & _).
  split; [exact Hr | exact (Hs eq_refl)].
Defined.

(** The sample form submitted and its request not answered yet. *)
Lemma at_most_one_submission_in_flight_witness :
  isSubmitting (view (steps sample_is_email initial sample_submission)) = true /\
  step sample_is_email (steps sample_is_email initial sample_submission) Submit =
    steps sample_is_email initial sample_submission.
Proof.
  refine (proj1 (proj2 (at_most_one_submission_in_flight sample_is_email
                          sample_submission)) _).
  vm_compute; discriminate.
Defined.

(** The two interpreters agree on a whole attempt: the sample submission,
    answered event by event, ends in the state [exec] computes. *)
Example sample_submission_completes :
  steps sample_is_email initial
    (sample_submission ++
     [Submit;
      Settle 0 (Responded (Fulfilled sample_created));
      Submit;
      Settle 0 (Parsed (Fulfilled sample_payload));
      Settle 0 (Logged (Fulfilled tt))]) =
  {| view := fst (exec (sample_env (Fulfilled sample_created) (Fulfilled tt))
                    (onSubmit sample_values) sample_ui);
     pending := [] |}.
Proof. reflexivity. Qed.

(** ** What a call of [onSubmit] does and never does *)

(** Case analysis along the branches of [onSubmit], leaving the conclusion
    of each branch computed. *)
Ltac leaves :=
  unfold onSubmit, onSubmit_try, onSubmit_catch, eval;
  repeat (cbn;
          match goal with
          | |- context [match ?x with _ => _ end] => destruct x eqn:?
          end);
  cbn.

(** X1.  A call issues no request when the widget holds no token and
    exactly one otherwise, whatever the server and the logger answer; the
    token sent is the one of the widget, whatever the [recaptchaToken]
    field of the submitted values holds. *)
Theorem one_request_per_attempt (env : Env) (v : FormData) (ui : UI) :
  (token_missing (widget_value (recaptchaRef ui)) = true ->
   requests (fst (exec env (onSubmit v) ui)) = requests ui) /\
  (forall tok,
     widget_value (recaptchaRef ui) = Some tok -> tok <> "" ->
     requests (fst (exec env (onSubmit v) ui)) =
       (requests ui ++ [join_request (with_recaptchaToken v tok)])%list /\
     recaptchaToken (body (join_request (with_recaptchaToken v tok))) = tok).
Proof.
  split.
  - intros H; rewrite onSubmit_requests, H; reflexivity.
  - intros tok Hw Htok; rewrite onSubmit_requests, Hw, (token_present tok Htok).
    split; reflexivity.
Qed.

(** X2.  A call assigns to [window.location.href] at most once, and only
    the truthy [redirect] of the payload of a response with status 303. *)
Theorem navigation_only_when_blocked (env : Env) (v : FormData) (ui : UI) :
  navigations (fst (exec env (onSubmit v) ui)) = navigations ui \/
  exists resp data target,
    fetch_reply env
      (join_request
         (with_recaptchaToken v (token_string (widget_value (recaptchaRef ui)))))
      = Fulfilled resp /\
    status resp = 303 /\
    json resp = Fulfilled data /\
    get_prop data "redirect" = inr target /\
    truthy target = true /\
    navigations (fst (exec env (onSubmit v) ui)) =
      (navigations ui ++ [target])%list.
Proof.
  leaves; try (left; reflexivity).
  all: right; do 3 eexists; repeat split; eauto; apply Z.eqb_eq; assumption.
Qed.

(** X3.  Unless the server answers with a success status, a call leaves
    the state of the form, values and errors, exactly as it was, whatever
    the logger does. *)
Theorem form_kept_unless_accepted (env : Env) (v : FormData) (ui : UI) :
  (forall resp,
     fetch_reply env
       (join_request
          (with_recaptchaToken v (token_string (widget_value (recaptchaRef ui)))))
       = Fulfilled resp ->
     ok resp = false) ->
  form (fst (exec env (onSubmit v) ui)) = form ui.
Proof.
  intros H; unfold onSubmit, onSubmit_try, onSubmit_catch, eval; branches.
  all: match goal with
       | H : forall resp, Fulfilled ?x = Fulfilled resp -> _,
         O : ok ?x = true |- _ => rewrite (H x eq_refl) in O; discriminate
       end.
Qed.

(** X4.  When a call ends with the green banner, the server answered with
    a success status, the form is back to its default values and the
    widget holds no token. *)
Theorem green_banner_means_accepted
    (env : Env) (v : FormData) (ui : UI) (text : Value) :
  banner (submitStatus (fst (exec env (onSubmit v) ui))) = green_banner text ->
  (exists resp,
     fetch_reply env
       (join_request
          (with_recaptchaToken v (token_string (widget_value (recaptchaRef ui)))))
       = Fulfilled resp /\ ok resp = true) /\
  form (fst (exec env (onSubmit v) ui)) =
    {| values := defaultValues; errors := [] |} /\
  widget_value (recaptchaRef (fst (exec env (onSubmit v) ui))) = None.
Proof.
  leaves; intros H; try discriminate H.
  all: split; [eexists; split; [reflexivity | assumption] |].
  all: split; [reflexivity | apply widget_value_reset].
Qed.

(** X5.  Every call ends with a banner on the page or with an assignment
    to [window.location.href]: no attempt ends silently. *)
Theorem attempt_ends_with_banner_or_navigation
    (env : Env) (v : FormData) (ui : UI) :
  banner (submitStatus (fst (exec env (onSubmit v) ui))) <> no_banner \/
  exists target,
    navigations (fst (exec env (onSubmit v) ui)) =
      (navigations ui ++ [target])%list.
Proof.
  leaves; try (left; discriminate).
  all: right; eexists; reflexivity.
Qed.

(** X6.  A response whose body cannot be read as JSON, or whose payload is
    [null], is handled as a network failure whatever its status, a success
    status included: the connectivity message in the red banner, the form
    kept, the widget reset, no navigation. *)
Theorem unreadable_payload_is_network_error
    (env : Env) (v : FormData) (ui : UI) (tok : string) (resp : Response) :
  widget_value (recaptchaRef ui) = Some tok ->
  tok <> "" ->
  fetch_reply env (join_request (with_recaptchaToken v tok)) = Fulfilled resp ->
  (exists e, json resp = Rejected e) \/
  json resp = Fulfilled VNull \/ json resp = Fulfilled VUndefined ->
  logger_fulfils env ->
  snd (exec env (onSubmit v) ui) = Returned tt /\
  submitStatus (fst (exec env (onSubmit v) ui)) =
    {| type := Some error; message := network_message |} /\
  form (fst (exec env (onSubmit v) ui)) = form ui /\
  recaptchaRef (fst (exec env (onSubmit v) ui)) = reset_widget (recaptchaRef ui) /\
  navigations (fst (exec env (onSubmit v) ui)) = navigations ui /\
  isSubmitting (fst (exec env (onSubmit v) ui)) = false.
Proof.
  intros Hw Htok Hf Hj Hl.
  unfold onSubmit, onSubmit_try, onSubmit_catch; cbn.
  rewrite Hw, (token_present tok Htok); cbn.
  rewrite Hf; cbn.
  destruct Hj as [[e Hj] | [Hj | Hj]]; rewrite Hj; cbn.
  - rewrite Hl; cbn; repeat split.
  - destruct (ok resp); cbn; [| destruct (status resp =? 303); cbn];
      rewrite Hl; cbn; repeat split.
  - destruct (ok resp); cbn; [| destruct (status resp =? 303); cbn];
      rewrite Hl; cbn; repeat split.
Qed.

(** X7.  What a call does depends neither on the banner nor on the
    [isSubmitting] flag it starts with: nothing of an earlier attempt's
    status survives into the next one. *)
Theorem attempt_forgets_previous_status
    (env : Env) (v : FormData) (ui : UI) (s : SubmitStatus) (b : bool) :
  exec env (onSubmit v) (with_submitStatus s (with_isSubmitting b ui)) =
  exec env (onSubmit v) ui.
Proof. reflexivity. Qed.

(** X8.  With a logger that fulfils, a call that finds no token logs
    nothing, and a call that issues its request logs exactly one event,
    [join_form_success], [join_form_blocked] or [join_form_error]. *)
Theorem one_event_per_request (env : Env) (v : FormData) (ui : UI) :
  logger_fulfils env ->
  (token_missing (widget_value (recaptchaRef ui)) = true ->
   activity (fst (exec env (onSubmit v) ui)) = activity ui) /\
  (token_missing (widget_value (recaptchaRef ui)) = false ->
   exists event ctx,
     activity (fst (exec env (onSubmit v) ui)) =
       (activity ui ++ [(event, ctx)])%list /\
     In event ["join_form_success"; "join_form_blocked"; "join_form_error"]).
Proof.
  intros Hl; split.
  - intros H; rewrite exec_run, onSubmit_without_token by exact H; reflexivity.
  - leaves; intros H; try discriminate H; fulfilled Hl.
    all: do 2 eexists; split; [reflexivity | simpl; tauto].
Qed.

(** X9.  A call of [onSubmit] throws only what the logger rejected with in
    the [catch] block: failures of the network, of the server and of the
    payload never escape it. *)
Theorem onSubmit_rejects_only_with_logger
    (env : Env) (v : FormData) (ui : UI) (e : Exn) :
  snd (exec env (onSubmit v) ui) = Threw e ->
  exists err,
    log_reply env "join_form_error"
      [("error_type", VStr "network_error"); ("error", error_text err)]
      = Rejected e.
Proof.
  leaves; intros H; try discriminate H.
  all: injection H as <-; eexists; eassumption.
Qed.

(** ** The requests of the component *)

Ltac fetch_free_leaves :=
  repeat (cbn;
          match goal with
          | |- _ /\ _ => split
          | |- forall _, _ => intro
          | |- True => exact I
          | |- context [match ?x with _ => _ end] => destruct x eqn:?
          end).

(** Up to its first [await] a call either finds no token and completes, or
    issues its request; what is left of it then never calls [fetch]. *)
Lemma onSubmit_first_leg (v : FormData) (ui : UI) :
  match run (onSubmit v) ui with
  | (ui', Waiting c k) =>
      token_missing (widget_value (recaptchaRef ui)) = false /\
      requests ui' =
        (requests ui ++
         [join_request
            (with_recaptchaToken v
               (token_string (widget_value (recaptchaRef ui))))])%list /\
      forall r, fetch_free (k r)
  | (ui', _) =>
      token_missing (widget_value (recaptchaRef ui)) = true /\
      requests ui' = requests ui
  end.
Proof.
  unfold onSubmit, onSubmit_try, onSubmit_catch, eval; cbn.
  destruct (token_missing (widget_value (recaptchaRef ui))); cbn.
  - split; reflexivity.
  - split; [reflexivity |]. split; [reflexivity |]. fetch_free_leaves.
Qed.

Lemma run_fetch_free (p : Prog unit) (ui : UI) :
  fetch_free p ->
  requests (fst (run p ui)) = requests ui /\
  match snd (run p ui) with
  | Waiting c k => forall r, fetch_free (k r)
  | _ => True
  end.
Proof.
  revert ui; induction p as [a | e | X c k IH | X c k IH]; intros ui H; simpl in *.
  - split; [reflexivity | exact I].
  - split; [reflexivity | exact I].
  - destruct (perform c ui) as [ui' x] eqn:E.
    destruct (IH x ui' (H x)) as [Hr Hk]; split; [| exact Hk].
    rewrite Hr; destruct c; simpl in E; injection E as <- _; reflexivity.
  - destruct H as [Hc Hk]; split; [| exact Hk].
    destruct c; [contradiction | reflexivity | reflexivity].
Qed.

Lemma token_string_nonempty (token : option string) :
  token_missing token = false -> token_string token <> "".
Proof.
  destruct token as [t |]; simpl; [| discriminate].
  intros H; apply String.eqb_neq; exact H.
Qed.

Lemma Forall_remove_nth {A : Type} (P : A -> Prop) (i : nat) (l : list A) :
  Forall P l -> Forall P (remove_nth i l).
Proof.
  revert l; induction i as [| i IH]; intros [| x l] H; unfold remove_nth; simpl;
    try exact H.
  - inversion H; assumption.
  - inversion H as [| y l' Hx Hl]; subst; constructor; [exact Hx |].
    exact (IH l Hl).
Qed.

Section Requests.

Variable is_email : string -> bool.

(** Replacing the token of schema-valid values by a non-empty one leaves
    them schema-valid. *)
Lemma formSchema_with_token (v : FormData) (tok : string) :
  formSchema is_email v = [] -> tok <> "" ->
  formSchema is_email (with_recaptchaToken v tok) = [].
Proof.
  intros H Htok.
  change (formSchema is_email (with_recaptchaToken v tok))
    with (name_issues v ++ email_issues is_email v ++ phone_issues v ++
          batch_issues v ++ rollNumber_issues v ++
          registrationNumber_issues v ++ department_issues v ++
          interestedTracks_issues v ++ whyJoin_issues v ++
          min_length "recaptchaToken" 1 "reCAPTCHA verification is required" tok)%list.
  unfold formSchema in H.
  repeat (apply app_eq_nil in H; destruct H as [-> H]).
  destruct tok; [contradiction | reflexivity].
Qed.

Lemma step_requests_well_formed (m : Machine) (ev : Event) :
  requests_well_formed is_email m ->
  requests_well_formed is_email (step is_email m ev).
Proof.
  intros [Hreq Hpend]; destruct ev as [| f | token | i a]; simpl.
  - destruct (isSubmitting (view m)); [split; assumption |].
    unfold handleSubmit.
    destruct (formSchema is_email (values (form (view m)))) eqn:Hvalid;
      [| split; assumption].
    pose proof (onSubmit_first_leg (values (form (view m)))
                  (with_form {| values := values (form (view m)); errors := [] |}
                     (view m))) as Hleg.
    destruct (run (onSubmit (values (form (view m)))) _) as [ui' [u | e | X c k]];
      unfold requests_well_formed; simpl in Hleg |- *.
    + destruct Hleg as [_ ->]; split; assumption.
    + destruct Hleg as [_ ->]; split; assumption.
    + destruct Hleg as (Htok & -> & Hk); split.
      * apply Forall_app; split; [exact Hreq |].
        constructor; [| constructor].
        split; [reflexivity |].
        apply formSchema_with_token; [exact Hvalid |].
        apply token_string_nonempty, Htok.
      * apply Forall_app; split; [exact Hpend |].
        constructor; [exact Hk | constructor].
  - split; assumption.
  - unfold verify; destruct (recaptchaRef (view m)); split; assumption.
  - destruct (nth_error (pending m) i) as [s |] eqn:Hs; [| split; assumption].
    destruct (answer_for (awaited s) a) as [r |]; [| split; assumption].
    assert (Hfree : fetch_free (resume s r)).
    { apply nth_error_In in Hs.
      exact (proj1 (Forall_forall _ _) Hpend s Hs r). }
    destruct (run_fetch_free (resume s r) (view m) Hfree) as [Hr Hk].
    pose proof (Forall_remove_nth _ i _ Hpend) as Hrest.
    destruct (run (resume s r) (view m)) as [ui' [u | e | X c k]];
      unfold requests_well_formed; simpl in Hr, Hk |- *; rewrite Hr;
      split; try assumption.
    apply Forall_app; split; [exact Hrest |].
    constructor; [exact Hk | constructor].
Qed.

(** X10.  Every request the component ever issues, along any sequence of
    events from its initial state, is a [POST] to [/api/join] with the
    JSON content type whose body passes the schema, with a non-empty
    verification token in particular. *)
Theorem every_request_is_well_formed (evs : list Event) :
  Forall (fun req => well_formed_request is_email req /\
                     recaptchaToken (body req) <> "")
         (requests (view (steps is_email initial evs))).
Proof.
  assert (Inv : requests_well_formed is_email (steps is_email initial evs)).
  { assert (H0 : requests_well_formed is_email initial)
      by (split; constructor).
    revert H0; generalize initial; induction evs as [| ev evs IH];
      intros m Hm; simpl; [exact Hm |].
    apply IH, step_requests_well_formed, Hm. }
  destruct Inv as [Hreq _].
  apply Forall_forall; intros req Hin.
  pose proof (proj1 (Forall_forall _ _) Hreq req Hin) as [Hjoin Hvalid].
  split; [split; assumption |].
  intros Hempty; unfold formSchema in Hvalid.
  repeat (apply app_eq_nil in Hvalid; destruct Hvalid as [_ Hvalid]).
  unfold recaptchaToken_issues, min_length in Hvalid.
  rewrite Hempty in Hvalid; discriminate Hvalid.
Qed.

(** X11.  A submit event issues a request exactly when the button is
    enabled, the schema raises no issue and the widget holds a token; the
    request then carries the values of the form with the token of the
    widget.  In every other case the requests are as they were. *)
Theorem submit_issues_request_iff (m : Machine) :
  (isSubmitting (view m) = false ->
   formSchema is_email (values (form (view m))) = [] ->
   token_missing (widget_value (recaptchaRef (view m))) = false ->
   requests (view (step is_email m Submit)) =
     (requests (view m) ++
      [join_request
         (with_recaptchaToken (values (form (view m)))
            (token_string (widget_value (recaptchaRef (view m)))))])%list) /\
  (isSubmitting (view m) = true \/
   formSchema is_email (values (form (view m))) <> [] \/
   token_missing (widget_value (recaptchaRef (view m))) = true ->
   requests (view (step is_email m Submit)) = requests (view m)).
Proof.
  pose proof (onSubmit_first_leg (values (form (view m)))
                (with_form {| values := values (form (view m)); errors := [] |}
                   (view m))) as Hleg.
  unfold step, handleSubmit; split.
  - intros -> -> Htok.
    destruct (run (onSubmit (values (form (view m)))) _) as [ui' [u | e | X c k]];
      simpl in Hleg |- *.
    + destruct Hleg as [Hleg _]; simpl in Hleg; congruence.
    + destruct Hleg as [Hleg _]; simpl in Hleg; congruence.
    + destruct Hleg as (_ & -> & _); reflexivity.
  - intros H; destruct (isSubmitting (view m)); [reflexivity |].
    destruct (formSchema is_email (values (form (view m)))); [| reflexivity].
    destruct H as [H | [H | H]]; [discriminate | contradiction |].
    destruct (run (onSubmit (values (form (view m)))) _) as [ui' [u | e | X c k]];
      simpl in Hleg |- *.
    + destruct Hleg as [_ ->]; reflexivity.
    + destruct Hleg as [_ ->]; reflexivity.
    + destruct Hleg as [Hleg _]; simpl in Hleg; congruence.
Qed.

End Requests.

(** ** The widget, the checkboxes and the header *)

(** X12.  After the widget of a mounted form has called [onChange], the
    widget and the [recaptchaToken] field agree: the field holds the token
    (the empty string for none), the other values are untouched, and the
    schema raises its verification issue exactly when the widget holds no
    token. *)
Theorem verify_keeps_form_and_widget_in_step (token : option string) (ui : UI) :
  recaptchaRef ui <> None ->
  widget_value (recaptchaRef (verify token ui)) = token /\
  values (form (verify token ui)) =
    with_recaptchaToken (values (form ui)) (token_string token) /\
  (recaptchaToken_issues (values (form (verify token ui))) = [] <->
   token_missing token = false).
Proof.
  intros Hmounted; unfold verify.
  destruct (recaptchaRef ui) as [w |]; [| contradiction]; simpl.
  repeat split.
  - unfold recaptchaToken_issues, min_length; simpl.
    destruct token as [[| c t] |]; simpl; intros H; try discriminate H; reflexivity.
  - unfold recaptchaToken_issues, min_length; simpl.
    destruct token as [[| c t] |]; simpl; intros H; try discriminate H; reflexivity.
Qed.

Lemma includes_app (t : string) (l l' : list string) :
  includes t (l ++ l') = includes t l || includes t l'.
Proof. apply existsb_app. Qed.

Lemma includes_filter_out (t' t : string) (l : list string) :
  includes t' (filter (fun x => negb (x =? t)%string) l) =
  if (t' =? t)%string then false else includes t' l.
Proof.
  induction l as [| x l IH]; simpl.
  - destruct (t' =? t)%string; reflexivity.
  - destruct (String.eqb_spec x t) as [-> | Hx]; simpl.
    + rewrite IH; destruct (String.eqb_spec t' t) as [_ | Hne]; [reflexivity |].
      reflexivity.
    + rewrite IH; destruct (String.eqb_spec t' t) as [-> | Hne].
      * apply not_eq_sym, String.eqb_neq in Hx; rewrite Hx; reflexivity.
      * reflexivity.
Qed.

(** X13.  After an [onCheckedChange] the checkbox of the track shows what
    was reported, and every other checkbox shows what it showed before. *)
Theorem onCheckedChange_sets_one_checkbox
    (track other : string) (checked : bool) (value : list string) :
  includes other (onCheckedChange track checked value) =
  if (other =? track)%string then checked else includes other value.
Proof.
  unfold onCheckedChange; destruct checked.
  - rewrite includes_app; simpl; rewrite orb_false_r.
    destruct (String.eqb_spec other track) as [-> | Hne].
    + apply orb_true_r.
    + apply orb_false_r.
  - apply includes_filter_out.
Qed.

Lemma includes_In (t : string) (l : list string) :
  includes t l = true <-> In t l.
Proof.
  unfold includes; rewrite existsb_exists; split.
  - intros (x & Hx & Heq); apply String.eqb_eq in Heq; subst; exact Hx.
  - intros H; exists t; split; [exact H | apply String.eqb_refl].
Qed.

Lemma filter_out_absent (t : string) (l : list string) :
  ~ In t l -> filter (fun x => negb (x =? t)%string) l = l.
Proof.
  induction l as [| x l IH]; simpl; intros H; [reflexivity |].
  destruct (String.eqb_spec x t) as [-> | Hne]; simpl.
  - exfalso; apply H; left; reflexivity.
  - rewrite IH; [reflexivity | intros Hin; apply H; right; exact Hin].
Qed.

(** X14.  Ticking a track that is not selected and unticking it again
    gives back the selection as it was, order included. *)
Theorem click_track_twice (value : list string) (track : string) :
  includes track value = false ->
  click_track (click_track value track) track = value.
Proof.
  intros H; unfold click_track at 2; rewrite H; simpl.
  unfold click_track; rewrite includes_app; simpl.
  rewrite String.eqb_refl, orb_true_r; simpl.
  rewrite filter_app; simpl; rewrite String.eqb_refl; simpl.
  rewrite app_nil_r; apply filter_out_absent.
  intros Hin; apply includes_In in Hin; congruence.
Qed.

Lemma NoDup_snoc (t : string) (l : list string) :
  NoDup l -> ~ In t l -> NoDup (l ++ [t]).
Proof.
  induction l as [| x l IH]; simpl; intros Hnd Hnot.
  - constructor; [intros [] | constructor].
  - inversion Hnd as [| y l' Hx Hl]; subst; constructor.
    + intros Hin; apply in_app_or in Hin; destruct Hin as [Hin | [-> | []]].
      * exact (Hx Hin).
      * apply Hnot; left; reflexivity.
    + apply IH; [exact Hl | intros Hin; apply Hnot; right; exact Hin].
Qed.

Lemma click_track_keeps_selection_tidy
    (allowed value : list string) (track : string) :
  NoDup value -> incl value allowed -> In track allowed ->
  NoDup (click_track value track) /\ incl (click_track value track) allowed.
Proof.
  intros Hnd Hincl Hin; unfold click_track, onCheckedChange.
  destruct (includes track value) eqn:Hsel; simpl.
  - split; [apply NoDup_filter, Hnd |].
    intros x Hx; apply filter_In in Hx; apply Hincl, Hx.
  - split.
    + apply NoDup_snoc; [exact Hnd |].
      intros H; apply includes_In in H; congruence.
    + intros x Hx; apply in_app_or in Hx; destruct Hx as [Hx | [<- | []]];
        [apply Hincl, Hx | exact Hin].
Qed.

(** X15.  However the checkboxes of the three tracks are clicked, starting
    from a selection without duplicates among the tracks (the empty one of
    the default values, for one), the selection stays without duplicates
    and among the tracks, so that it never holds more than three. *)
Theorem clicks_keep_selection_tidy (value : list string) (clicks : list string) :
  NoDup value -> incl value tracks ->
  Forall (fun track => In track tracks) clicks ->
  NoDup (fold_left click_track clicks value) /\
  incl (fold_left click_track clicks value) tracks /\
  (length (fold_left click_track clicks value) <= 3)%nat.
Proof.
  intros Hnd Hincl Hclicks.
  assert (H : NoDup (fold_left click_track clicks value) /\
              incl (fold_left click_track clicks value) tracks).
  { revert value Hnd Hincl;
      induction Hclicks as [| track clicks Htrack _ IH]; intros value Hnd Hincl;
      simpl; [split; assumption |].
    destruct (click_track_keeps_selection_tidy tracks value track Hnd Hincl Htrack)
      as [Hnd' Hincl'].
    exact (IH _ Hnd' Hincl'). }
  destruct H as [H1 H2]; repeat split; [exact H1 | exact H2 |].
  exact (NoDup_incl_length H1 H2).
Qed.

Lemma prefix_comparable (p q s : string) :
  prefix p s = true -> prefix q s = true ->
  prefix p q = true \/ prefix q p = true.
Proof.
  revert q s; induction p as [| a p IH]; intros q s Hp Hq;
    [left; destruct q; reflexivity |].
  destruct q as [| c q]; [right; reflexivity |].
  destruct s as [| b s]; [discriminate Hp |]; simpl in *.
  destruct (ascii_dec a b) as [-> |]; [| discriminate Hp].
  destruct (ascii_dec c b) as [-> |]; [| discriminate Hq].
  destruct (ascii_dec b b) as [_ | Hne]; [| contradiction].
  exact (IH q s Hp Hq).
Qed.

Lemma prefix_append (p rest : string) : prefix p (p ++ rest) = true.
Proof.
  induction p as [| a p IH]; simpl; [destruct rest; reflexivity |].
  destruct (ascii_dec a a) as [_ | Hne]; [exact IH | contradiction].
Qed.

Lemma isActive_root (pathname : string) :
  Header.isActive pathname "/" = true -> pathname = "/".
Proof.
  unfold Header.isActive; simpl.
  destruct (String.eqb_spec pathname "/") as [-> | _];
    [reflexivity | discriminate].
Qed.

Lemma isActive_page (pathname path : string) :
  path <> "/" -> Header.isActive pathname path = prefix path pathname.
Proof.
  intros H; unfold Header.isActive.
  apply String.eqb_neq in H; rewrite H; simpl.
  destruct (prefix path pathname); reflexivity.
Qed.

Lemma nav_active_unique (pathname : string) (a b : Header.NavItem) :
  In a Header.navItems -> In b Header.navItems ->
  Header.isActive pathname (Header.path a) = true ->
  Header.isActive pathname (Header.path b) = true ->
  a = b.
Proof.
  intros Ha Hb Haa Hab; simpl in Ha, Hb.
  repeat (destruct Ha as [<- | Ha]); try contradiction;
    repeat (destruct Hb as [<- | Hb]); try contradiction;
    try reflexivity; exfalso; simpl in Haa, Hab;
    first
      [ apply isActive_root in Haa; subst pathname; discriminate Hab
      | apply isActive_root in Hab; subst pathname; discriminate Haa
      | rewrite isActive_page in Haa, Hab by discriminate;
        destruct (prefix_comparable _ _ _ Haa Hab) as [H | H]; discriminate H ].
Qed.

(** X16.  Whatever the pathname, at most one item of the navigation bar
    is shown as active. *)
Theorem at_most_one_nav_item_active
    (pathname : string) (a b : Header.NavItem) :
  In a Header.navItems -> In b Header.navItems ->
  Header.isActive pathname (Header.path a) = true ->
  Header.isActive pathname (Header.path b) = true ->
  a = b.
Proof. exact (nav_active_unique pathname a b). Qed.

(** X17.  On the page of an item of the navigation bar, and for every item
    but Home on every pathname that continues the path of the item, that
    item is shown as active and no other. *)
Theorem nav_item_active_on_its_pages
    (a b : Header.NavItem) (rest : string) :
  In a Header.navItems -> In b Header.navItems ->
  (Header.path a = "/" -> rest = "") ->
  (Header.isActive (Header.path a ++ rest) (Header.path b) = true <-> a = b).
Proof.
  intros Ha Hb Hroot.
  assert (Hown : Header.isActive (Header.path a ++ rest) (Header.path a) = true).
  { destruct (String.eqb_spec (Header.path a) "/") as [Heq | Hne].
    - rewrite (Hroot Heq), Heq; reflexivity.
    - rewrite isActive_page by exact Hne; apply prefix_append. }
  split.
  - intros H; symmetry; exact (nav_active_unique _ b a Hb Ha H Hown).
  - intros <-; exact Hown.
Qed.

(** ** The further properties at the sample data *)

Lemma one_request_per_attempt_witness :
  requests
    (fst (exec (sample_env (Fulfilled sample_throttled)
                  (Rejected (JsError "logger unavailable")))
               (onSubmit sample_values) sample_ui)) =
  [join_request sample_values].
Proof.
  exact (proj1 (proj2 (one_request_per_attempt
                         (sample_env (Fulfilled sample_throttled)
                            (Rejected (JsError "logger unavailable")))
                         sample_values sample_ui)
                  "tok" eq_refl sample_token)).
Defined.

Lemma form_kept_unless_accepted_witness :
  form (fst (exec (sample_env (Fulfilled sample_throttled)
                     (Rejected (JsError "logger unavailable")))
                  (onSubmit sample_values) sample_ui)) =
  {| values := sample_values; errors := [] |}.
Proof.
  apply (form_kept_unless_accepted
           (sample_env (Fulfilled sample_throttled)
              (Rejected (JsError "logger unavailable")))
           sample_values sample_ui).
  intros resp H; injection H as <-; reflexivity.
Defined.

Lemma green_banner_means_accepted_witness :
  form (fst (exec (sample_env (Fulfilled sample_created) (Fulfilled tt))
                  (onSubmit sample_values) sample_ui)) =
  {| values := defaultValues; errors := [] |}.
Proof.
  exact (proj1 (proj2 (green_banner_means_accepted
                         (sample_env (Fulfilled sample_created) (Fulfilled tt))
                         sample_values sample_ui (VStr "Application received")
                         eq_refl))).
Defined.

(** A success status with a body that is not JSON. *)
Lemma unreadable_payload_is_network_error_witness :
  submitStatus
    (fst (exec (sample_env
                  (Fulfilled {| status := 200;
                                json := Rejected (JsError "Unexpected token <") |})
                  (Fulfilled tt))
               (onSubmit sample_values) sample_ui)) =
  {| type := Some error; message := network_message |}.
Proof.
  exact (proj1 (proj2 (unreadable_payload_is_network_error
                         (sample_env
                            (Fulfilled {| status := 200;
                                          json := Rejected (JsError "Unexpected token <") |})
                            (Fulfilled tt))
                         sample_values sample_ui "tok"
                         {| status := 200;
                            json := Rejected (JsError "Unexpected token <") |}
                         eq_refl sample_token eq_refl
                         (or_introl (ex_intro _ (JsError "Unexpected token <") eq_refl))
                         (fun _ _ => eq_refl)))).
Defined.

Lemma one_event_per_request_witness :
  exists event ctx,
    activity (fst (exec (sample_env (Fulfilled sample_blocked) (Fulfilled tt))
                        (onSubmit sample_values) sample_ui)) =
      [(event, ctx)] /\
    In event ["join_form_success"; "join_form_blocked"; "join_form_error"].
Proof.
  exact (proj2 (one_event_per_request
                  (sample_env (Fulfilled sample_blocked) (Fulfilled tt))
                  sample_values sample_ui (fun _ _ => eq_refl))
           eq_refl).
Defined.

(** No network and no logger. *)
Lemma onSubmit_rejects_only_with_logger_witness :
  exists err,
    log_reply (sample_env (Rejected (JsError "Failed to fetch"))
                 (Rejected (JsError "logger unavailable")))
      "join_form_error"
      [("error_type", VStr "network_error"); ("error", error_text err)]
    = Rejected (JsError "logger unavailable").
Proof.
  exact (onSubmit_rejects_only_with_logger
           (sample_env (Rejected (JsError "Failed to fetch"))
              (Rejected (JsError "logger unavailable")))
           sample_values sample_ui (JsError "logger unavailable") eq_refl).
Defined.

Lemma submit_issues_request_iff_witness :
  requests (view (step sample_is_email
                    {| view := sample_ui; pending := [] |} Submit)) =
  [join_request sample_values].
Proof.
  exact (proj1 (submit_issues_request_iff sample_is_email
                  {| view := sample_ui; pending := [] |})
           eq_refl eq_refl eq_refl).
Defined.

Lemma verify_keeps_form_and_widget_in_step_witness :
  widget_value (recaptchaRef (verify (Some "tok") (view initial))) = Some "tok" /\
  recaptchaToken (values (form (verify (Some "tok") (view initial)))) = "tok".
Proof.
  assert (Hmounted : recaptchaRef (view initial) <> None) by discriminate.
  destruct (verify_keeps_form_and_widget_in_step (Some "tok") (view initial)
              Hmounted) as (Hw & Hv & _).
  split; [exact Hw | rewrite Hv; reflexivity].
Defined.

Lemma click_track_twice_witness :
  click_track (click_track ["Hardware & IoT"] "Postgraduate Prep")
    "Postgraduate Prep" = ["Hardware & IoT"].
Proof.
  exact (click_track_twice ["Hardware & IoT"] "Postgraduate Prep" eq_refl).
Defined.

Lemma clicks_keep_selection_tidy_witness :
  NoDup (fold_left click_track
           ["Hardware & IoT"; "Coding & Development"; "Hardware & IoT"] []) /\
  incl (fold_left click_track
          ["Hardware & IoT"; "Coding & Development"; "Hardware & IoT"] [])
       tracks /\
  (length (fold_left click_track
             ["Hardware & IoT"; "Coding & Development"; "Hardware & IoT"] [])
   <= 3)%nat.
Proof.
  apply clicks_keep_selection_tidy.
  - constructor.
  - intros x [].
  - repeat constructor; simpl; tauto.
Defined.

Lemma at_most_one_nav_item_active_witness :
  {| Header.name := "Team"; Header.path := "/team" |} =
  {| Header.name := "Team"; Header.path := "/team" |}.
Proof.
  apply (at_most_one_nav_item_active "/team/alumni");
    [simpl; tauto | simpl; tauto | reflexivity | reflexivity].
Defined.

Lemma nav_item_active_on_its_pages_witness :
  Header.isActive "/events/2024" "/events" = true.
Proof.
  apply (proj2 (nav_item_active_on_its_pages
                  {| Header.name := "Events"; Header.path := "/events" |}
                  {| Header.name := "Events"; Header.path := "/events" |}
                  "/2024"
                  (or_intror (or_intror (or_introl eq_refl)))
                  (or_intror (or_intror (or_introl eq_refl)))
                  (fun H => match eq_ind "/events"
                                    (fun s => match s with
                                              | String _ (String _ _) => True
                                              | _ => False
                                              end) I "/" H with end))
               eq_refl).
Defined.
